(** * init_s3.py: provisioning one bucket through an S3 SDK

  The script reads four environment variables, builds an S3 client,
  issues one [create_bucket] call and prints a confirmation line.

  The embedding has three layers:
  - the Python values and built-ins the script uses ([os.getenv], [str],
    the replacement field of an f-string);
  - the script itself, [init_s3], a straight-line program over the three
    calls that leave the process ([boto3.client], [create_bucket],
    [print]);
  - an interpreter, [python], that runs the script against an arbitrary
    SDK, storage service and standard output, with Python's rules for
    uncaught exceptions and for the flush of standard output at exit. *)

From Stdlib Require Import String Ascii List.
From stdpp Require Import base strings gmap.
Import ListNotations.

Open Scope string_scope.

(** ** Python values *)

(** The values that reach the script: [os.getenv] yields [None] or a [str]. *)
Inductive PyVal : Type :=
| PyNone
| PyStr (s : string).

(** [str(o)]: a [str] is returned as it is, [None] becomes the text
  [None]. *)
Definition str (o : PyVal) : string :=
  match o with
  | PyNone => "None"
  | PyStr s => s
  end.

(** The replacement field [{o}] of an f-string, with no conversion and an
  empty format specification: [format(o, '')]. [str.__format__] returns
  the string itself; [None] has [object.__format__], which is [str(self)]
  for an empty specification. *)
Definition format_field (o : PyVal) : string :=
  match o with
  | PyStr s => s
  | PyNone => str PyNone
  end.

(** The end of line [print] appends. *)
Definition newline : string := String "010"%char EmptyString.

Module os.

(** [os.getenv(key)], with its default [None]: [os.environ.get(key)]. The
    environment is the mapping the process was started with: the script
    does not write to it, and the SDK is taken not to either, so the two
    reads of [S3_BUCKET_NAME] see the same mapping. The SDK and the
    interpreter read it too (see [Host]). *)
Definition getenv (environ : gmap string string) (key : string) : PyVal :=
  match environ !! key with
  | Some value => PyStr value
  | None => PyNone
  end.

End os.

(** ** What lies outside the script *)

(** An exception object: its class and its message. *)
Record Exception : Type := {
  exc_class : string;
  exc_message : string
}.

(** The environment as [boto3] and the interpreter see it. They read it on
    their own account ([AWS_ENDPOINT_URL], [AWS_PROFILE],
    [PYTHONIOENCODING], ...), but none of the four variables of the script,
    which are not among theirs. *)
Definition ambient (environ : gmap string string) : gmap string string :=
  delete "S3_ENDPOINT"
    (delete "S3_ACCESS_KEY_ID"
       (delete "S3_SECRET_ACCESS_KEY"
          (delete "S3_BUCKET_NAME" environ))).

(** What the script runs against: [boto3] (the client constructor and the
    client's [create_bucket] method) and the interpreter's [sys.stdout].
    Every operation is given, first, the environment as it sees it
    ([ambient]). Every operation may change the world outside the process
    (the network, the storage service, the file behind standard output),
    which is the state [World]. The two calls of the SDK and a write to
    [sys.stdout] may raise. [stdout_flush] is the flush of [sys.stdout] when
    the interpreter exits, and tells whether it succeeded. Nothing is fixed
    about any of them here: every property below holds for all of them. *)
Record Host : Type := {
  Client : Type;
  Response : Type;
  World : Type;
  sdk_client :
    gmap string string ->
    string -> PyVal -> PyVal -> PyVal -> World -> (Exception + Client) * World;
  sdk_create_bucket :
    gmap string string ->
    Client -> PyVal -> World -> (Exception + Response) * World;
  stdout_write :
    gmap string string -> string -> World -> (Exception + unit) * World;
  stdout_flush :
    gmap string string -> World -> bool * World
}.

Section Script.

Context (host : Host).

(** The calls of the script that leave the process, with their keyword
    arguments. *)
Inductive request : Type :=
| Boto3Client (service_name : string)
              (endpoint_url aws_access_key_id aws_secret_access_key : PyVal)
| CreateBucket (self : Client host) (Bucket : PyVal)
| Print (text : string).

(** The type of what each call returns. *)
Definition reply (q : request) : Type :=
  match q with
  | Boto3Client _ _ _ _ => Client host
  | CreateBucket _ _ => Response host
  | Print _ => unit
  end.

(** Programs: a call followed by the rest of the program, which receives
    the value returned. *)
Inductive prog (R : Type) : Type :=
| Ret (r : R)
| Call (q : request) (k : reply q -> prog R).

Arguments Ret {R} r.
Arguments Call {R} q k.

Fixpoint bind {A B : Type} (p : prog A) (f : A -> prog B) : prog B :=
  match p with
  | Ret a => f a
  | Call q k => Call q (fun x => bind (k x) f)
  end.

#[local] Instance prog_ret : MRet prog := fun _ r => Ret r.
#[local] Instance prog_bind : MBind prog := fun _ _ f p => bind p f.

Definition perform (q : request) : prog (reply q) := Call q Ret.

Definition boto3_client (service_name : string)
    (endpoint_url aws_access_key_id aws_secret_access_key : PyVal)
  : prog (Client host) :=
  perform (Boto3Client service_name endpoint_url aws_access_key_id
                       aws_secret_access_key).

Definition create_bucket (self : Client host) (Bucket : PyVal)
  : prog (Response host) :=
  perform (CreateBucket self Bucket).

Definition print (text : string) : prog unit := perform (Print text).

(** *** The script *)

Definition init_s3 (environ : gmap string string) : prog unit :=
  s3_client ← boto3_client "s3"
                (os.getenv environ "S3_ENDPOINT")
                (os.getenv environ "S3_ACCESS_KEY_ID")
                (os.getenv environ "S3_SECRET_ACCESS_KEY");
  _ ← create_bucket s3_client
        (PyStr (str (os.getenv environ "S3_BUCKET_NAME")));
  print ("Bucket " +:+ format_field (os.getenv environ "S3_BUCKET_NAME")
           +:+ " created successfully").

(** *** Running a program *)

(** One line of the run's record: the call made and how it ended. *)
Inductive entry : Type :=
| Returned (q : request)
| Raised (q : request) (e : Exception).

Definition entry_request (t : entry) : request :=
  match t with
  | Returned q => q
  | Raised q _ => q
  end.

(** The state of a running process: the world outside, the text that
    [sys.stdout] has accepted, and the calls made so far, oldest first. *)
Record process : Type := {
  world : World host;
  stdout : string;
  log : list entry
}.

(** [print(text)] with its default end and file: it writes [text] to
    [sys.stdout], then the newline, in two calls of [write]; the first one
    that raises ends the [print], and what was accepted before stays
    accepted. *)
Definition print_to_stdout (environ : gmap string string) (text : string)
    (st : process) : (Exception + unit) * World host * string :=
  match stdout_write host environ text (world st) with
  | (inl e, w) => (inl e, w, stdout st)
  | (inr _, w) =>
      match stdout_write host environ newline w with
      | (inl e, w') => (inl e, w', stdout st +:+ text)
      | (inr _, w') => (inr tt, w', stdout st +:+ text +:+ newline)
      end
  end.

(** What a call does to the world and to standard output. *)
Definition answer (environ : gmap string string) (q : request) (st : process)
  : (Exception + reply q) * World host * string :=
  match q return (Exception + reply q) * World host * string with
  | Boto3Client service e a k =>
      (sdk_client host environ service e a k (world st), stdout st)
  | CreateBucket self b =>
      (sdk_create_bucket host environ self b (world st), stdout st)
  | Print text => print_to_stdout environ text st
  end.

Definition step (environ : gmap string string) (q : request) (st : process)
  : (Exception + reply q) * process :=
  match answer environ q st with
  | (inl e, w, out) =>
      (inl e, {| world := w; stdout := out; log := log st ++ [Raised q e] |})
  | (inr x, w, out) =>
      (inr x, {| world := w; stdout := out; log := log st ++ [Returned q] |})
  end.

(** Nothing in the script catches an exception: the first call that
    raises ends the program. *)
Fixpoint exec {R : Type} (environ : gmap string string) (p : prog R)
    (st : process) : (Exception + R) * process :=
  match p with
  | Ret r => (inr r, st)
  | Call q k =>
      match step environ q st with
      | (inl e, st') => (inl e, st')
      | (inr x, st') => exec environ (k x) st'
      end
  end.

(** What is seen of a finished process. [flushed] tells whether the text
    accepted by [sys.stdout] was flushed at exit; only then has it all
    reached the file behind standard output. *)
Record outcome : Type := {
  exit_status : nat;
  uncaught : option Exception;
  flushed : bool;
  final : process
}.

Definition no_text (s : string) : bool :=
  match s with
  | EmptyString => true
  | String _ _ => false
  end.

(** The end of the interpreter. The status is 0 when the last statement is
    done and 1, with a traceback, when an exception was not caught (the
    exceptions raised here are ordinary [Exception]s). Then [sys.stdout] is
    flushed; when that fails the status becomes 120. A stream that has
    accepted nothing has nothing to flush. *)
Definition finish (environ : gmap string string)
    (r : (Exception + unit) * process) : outcome :=
  let status := match fst r with inr _ => 0 | inl _ => 1 end in
  let exception := match fst r with inr _ => None | inl e => Some e end in
  if no_text (stdout (snd r)) then
    {| exit_status := status; uncaught := exception; flushed := true;
       final := snd r |}
  else
    match stdout_flush host environ (world (snd r)) with
    | (true, w) =>
        {| exit_status := status; uncaught := exception; flushed := true;
           final := {| world := w; stdout := stdout (snd r);
                       log := log (snd r) |} |}
    | (false, w) =>
        {| exit_status := 120; uncaught := exception; flushed := false;
           final := {| world := w; stdout := stdout (snd r);
                       log := log (snd r) |} |}
    end.

(** Running a script to its end, in the environment the process was
    started with. *)
Definition python (environ : gmap string string) (p : prog unit)
    (w0 : World host) : outcome :=
  finish (ambient environ)
    (exec (ambient environ) p
       {| world := w0; stdout := EmptyString; log := [] |}).

Definition run (environ : gmap string string) (w0 : World host) : outcome :=
  python environ (init_s3 environ) w0.

(** *** Reading a run's record *)

Definition requests (o : outcome) : list request :=
  map entry_request (log (final o)).

Definition output (o : outcome) : string := stdout (final o).

(** The [Bucket] arguments of the creation calls made, in order. *)
Fixpoint buckets (qs : list request) : list PyVal :=
  match qs with
  | [] => []
  | CreateBucket _ b :: qs' => b :: buckets qs'
  | _ :: qs' => buckets qs'
  end.

(** The texts given to [print], in order. *)
Fixpoint printed (qs : list request) : list string :=
  match qs with
  | [] => []
  | Print text :: qs' => text :: printed qs'
  | _ :: qs' => printed qs'
  end.

(** Whether the client constructor, the creation call and [print]
    returned without raising. *)
Definition client_returned (t : entry) : bool :=
  match t with
  | Returned (Boto3Client _ _ _ _) => true
  | _ => false
  end.

Definition create_returned (t : entry) : bool :=
  match t with
  | Returned (CreateBucket _ _) => true
  | _ => false
  end.

Definition print_returned (t : entry) : bool :=
  match t with
  | Returned (Print _) => true
  | _ => false
  end.

Definition client_built (o : outcome) : bool :=
  existsb client_returned (log (final o)).

Definition bucket_created (o : outcome) : bool :=
  existsb create_returned (log (final o)).

Definition confirmation_printed (o : outcome) : bool :=
  existsb print_returned (log (final o)).

(** A call of the SDK, as opposed to [print]. *)
Definition sdk_call (q : request) : bool :=
  match q with
  | Print _ => false
  | _ => true
  end.

End Script.

Arguments Ret {host R} r.
Arguments Call {host R} q k.
Arguments Boto3Client {host}.
Arguments CreateBucket {host}.
Arguments Print {host}.
Arguments Returned {host}.
Arguments Raised {host}.
Arguments entry_request {host}.
Arguments run {host}.
Arguments requests {host}.
Arguments output {host}.
Arguments buckets {host}.
Arguments printed {host}.
Arguments client_built {host}.
Arguments bucket_created {host}.
Arguments confirmation_printed {host}.
Arguments sdk_call {host}.
Arguments python {host}.
Arguments exec {host R}.
Arguments finish {host}.
Arguments exit_status {host}.
Arguments uncaught {host}.
Arguments flushed {host}.
Arguments final {host}.
Arguments log {host}.
Arguments stdout {host}.
Arguments world {host}.

(** ** The environment in the words of the specification *)

(** The name of the bucket: the value of [S3_BUCKET_NAME], or the text
    [None] when the variable is unset. *)
Definition bucket_name (environ : gmap string string) : string :=
  match environ !! "S3_BUCKET_NAME" with
  | Some value => value
  | None => "None"
  end.

(** The confirmation line for a bucket. *)
Definition confirmation (name : string) : string :=
  "Bucket " +:+ name +:+ " created successfully".

(** A variable handed on as it was found: its value when it is set,
    [None] when it is not. *)
Definition as_found (environ : gmap string string) (key : string)
    (v : PyVal) : Prop :=
  match environ !! key with
  | Some value => v = PyStr value
  | None => v = PyNone
  end.

(** The three calls of a run, with the arguments the environment gives. *)
Definition client_call {host : Host} (environ : gmap string string)
  : request host :=
  Boto3Client "s3"
    (os.getenv environ "S3_ENDPOINT")
    (os.getenv environ "S3_ACCESS_KEY_ID")
    (os.getenv environ "S3_SECRET_ACCESS_KEY").

Definition create_call {host : Host} (environ : gmap string string)
    (s3_client : Client host) : request host :=
  CreateBucket s3_client (PyStr (bucket_name environ)).

Definition print_call {host : Host} (environ : gmap string string)
  : request host :=
  Print (confirmation (bucket_name environ)).

(** The status at exit: that of the script, or 120 when the flush of
    standard output failed. *)
Definition status_after_flush (status : nat) (ok : bool) : nat :=
  if ok then status else 120.

(** The ways a run ends: the constructor raises; the creation call raises;
    [print] raises on writing the line, or on writing the newline after it;
    or the script runs to its last line. In the last two [sys.stdout] has
    accepted text, and is flushed at exit. *)
Inductive ending {host : Host} (environ : gmap string string)
    (w0 : World host) : outcome host -> Prop :=
| client_raises e w1 :
    sdk_client host (ambient environ) "s3"
      (os.getenv environ "S3_ENDPOINT")
      (os.getenv environ "S3_ACCESS_KEY_ID")
      (os.getenv environ "S3_SECRET_ACCESS_KEY") w0 = (inl e, w1) ->
    ending environ w0
      {| exit_status := 1; uncaught := Some e; flushed := true;
         final := {| world := w1; stdout := EmptyString;
                     log := [Raised (client_call environ) e] |} |}
| create_raises c w1 e w2 :
    sdk_client host (ambient environ) "s3"
      (os.getenv environ "S3_ENDPOINT")
      (os.getenv environ "S3_ACCESS_KEY_ID")
      (os.getenv environ "S3_SECRET_ACCESS_KEY") w0 = (inr c, w1) ->
    sdk_create_bucket host (ambient environ) c (PyStr (bucket_name environ)) w1
      = (inl e, w2) ->
    ending environ w0
      {| exit_status := 1; uncaught := Some e; flushed := true;
         final := {| world := w2; stdout := EmptyString;
                     log := [Returned (client_call environ);
                             Raised (create_call environ c) e] |} |}
| print_raises c w1 r w2 e w3 :
    sdk_client host (ambient environ) "s3"
      (os.getenv environ "S3_ENDPOINT")
      (os.getenv environ "S3_ACCESS_KEY_ID")
      (os.getenv environ "S3_SECRET_ACCESS_KEY") w0 = (inr c, w1) ->
    sdk_create_bucket host (ambient environ) c (PyStr (bucket_name environ)) w1
      = (inr r, w2) ->
    stdout_write host (ambient environ) (confirmation (bucket_name environ)) w2
      = (inl e, w3) ->
    ending environ w0
      {| exit_status := 1; uncaught := Some e; flushed := true;
         final := {| world := w3; stdout := EmptyString;
                     log := [Returned (client_call environ);
                             Returned (create_call environ c);
                             Raised (print_call environ) e] |} |}
| newline_raises c w1 r w2 w3 e w4 ok w5 :
    sdk_client host (ambient environ) "s3"
      (os.getenv environ "S3_ENDPOINT")
      (os.getenv environ "S3_ACCESS_KEY_ID")
      (os.getenv environ "S3_SECRET_ACCESS_KEY") w0 = (inr c, w1) ->
    sdk_create_bucket host (ambient environ) c (PyStr (bucket_name environ)) w1
      = (inr r, w2) ->
    stdout_write host (ambient environ) (confirmation (bucket_name environ)) w2
      = (inr tt, w3) ->
    stdout_write host (ambient environ) newline w3 = (inl e, w4) ->
    stdout_flush host (ambient environ) w4 = (ok, w5) ->
    ending environ w0
      {| exit_status := status_after_flush 1 ok; uncaught := Some e;
         flushed := ok;
         final := {| world := w5;
                     stdout := confirmation (bucket_name environ);
                     log := [Returned (client_call environ);
                             Returned (create_call environ c);
                             Raised (print_call environ) e] |} |}
| completes c w1 r w2 w3 w4 ok w5 :
    sdk_client host (ambient environ) "s3"
      (os.getenv environ "S3_ENDPOINT")
      (os.getenv environ "S3_ACCESS_KEY_ID")
      (os.getenv environ "S3_SECRET_ACCESS_KEY") w0 = (inr c, w1) ->
    sdk_create_bucket host (ambient environ) c (PyStr (bucket_name environ)) w1
      = (inr r, w2) ->
    stdout_write host (ambient environ) (confirmation (bucket_name environ)) w2
      = (inr tt, w3) ->
    stdout_write host (ambient environ) newline w3 = (inr tt, w4) ->
    stdout_flush host (ambient environ) w4 = (ok, w5) ->
    ending environ w0
      {| exit_status := status_after_flush 0 ok; uncaught := None;
         flushed := ok;
         final := {| world := w5;
                     stdout := confirmation (bucket_name environ) +:+ newline;
                     log := [Returned (client_call environ);
                             Returned (create_call environ c);
                             Returned (print_call environ)] |} |}.

(** ** A storage service to run the script against *)

Module LocalStore.

(** A service that keeps the names of its buckets. The constructor takes
    the endpoint from [AWS_ENDPOINT_URL] when it is given none, and rejects
    one that is not an http(s) URL; creation rejects a missing name and a
    name already taken. Standard output accepts every text, unless
    [PYTHONIOENCODING] names the codec [undefined], which encodes
    nothing. *)
Definition raise {A W : Type} (class message : string) (w : W)
  : (Exception + A) * W :=
  (inl {| exc_class := class; exc_message := message |}, w).

Definition check_endpoint (url : string) (w : list string)
  : (Exception + PyVal) * list string :=
  if String.prefix "http" url then (inr (PyStr url), w)
  else raise "ValueError" ("Invalid endpoint: " +:+ url) w.

Definition connect (environ : gmap string string) (service : string)
    (endpoint key secret : PyVal) (w : list string)
  : (Exception + PyVal) * list string :=
  match endpoint with
  | PyStr url => check_endpoint url w
  | PyNone =>
      match environ !! "AWS_ENDPOINT_URL" with
      | Some url => check_endpoint url w
      | None => (inr PyNone, w)
      end
  end.

Definition make_bucket (environ : gmap string string) (self : PyVal)
    (Bucket : PyVal) (w : list string)
  : (Exception + string) * list string :=
  match Bucket with
  | PyNone => raise "ParamValidationError" "Invalid type for parameter Bucket" w
  | PyStr name =>
      if existsb (String.eqb name) w
      then raise "BucketAlreadyOwnedByYou" name w
      else (inr ("/" +:+ name), (w ++ [name])%list)
  end.

Definition write (environ : gmap string string) (text : string)
    (w : list string) : (Exception + unit) * list string :=
  match environ !! "PYTHONIOENCODING" with
  | Some "undefined" => raise "UnicodeError" "undefined encoding" w
  | _ => (inr tt, w)
  end.

Definition flush (environ : gmap string string) (w : list string)
  : bool * list string :=
  (true, w).

Definition host : Host := {|
  Client := PyVal;
  Response := string;
  World := list string;
  sdk_client := connect;
  sdk_create_bucket := make_bucket;
  stdout_write := write;
  stdout_flush := flush
|}.

(** Environments of a local deployment. *)
Definition env_full : gmap string string :=
  list_to_map [("S3_ENDPOINT", "http://localhost:9000");
               ("S3_ACCESS_KEY_ID", "minioadmin");
               ("S3_SECRET_ACCESS_KEY", "minio-secret");
               ("S3_BUCKET_NAME", "exit-debt")].

Definition env_other_keys : gmap string string :=
  list_to_map [("S3_ENDPOINT", "https://s3.example.org");
               ("S3_ACCESS_KEY_ID", "AKIAEXAMPLE");
               ("S3_BUCKET_NAME", "exit-debt")].

Definition env_no_bucket : gmap string string :=
  list_to_map [("S3_ENDPOINT", "http://localhost:9000");
               ("S3_ACCESS_KEY_ID", "minioadmin");
               ("S3_SECRET_ACCESS_KEY", "minio-secret")].

Definition env_empty_bucket : gmap string string :=
  list_to_map [("S3_ENDPOINT", "http://localhost:9000");
               ("S3_BUCKET_NAME", EmptyString)].

Definition env_bad_endpoint : gmap string string :=
  list_to_map [("S3_ENDPOINT", "localhost:9000");
               ("S3_BUCKET_NAME", "exit-debt")].

End LocalStore.

(** A standard output on a full device: every write is accepted into the
    buffer, and the flush at exit fails. *)
Module FullDevice.

Definition flush (environ : gmap string string) (w : list string)
  : bool * list string :=
  (false, w).

Definition host : Host := {|
  Client := PyVal;
  Response := string;
  World := list string;
  sdk_client := LocalStore.connect;
  sdk_create_bucket := LocalStore.make_bucket;
  stdout_write := LocalStore.write;
  stdout_flush := flush
|}.

End FullDevice.

(** Further environments: a bucket variable set to the text [None], the
    local deployment with another bucket, with a codec for standard output
    that encodes nothing, and one that differs from the local deployment
    only in a variable the SDK reads. *)
Module Shell.

Definition env_none_text : gmap string string :=
  <["S3_BUCKET_NAME" := "None"]> LocalStore.env_no_bucket.

Definition env_debts : gmap string string :=
  <["S3_BUCKET_NAME" := "debts"]> LocalStore.env_full.

Definition env_undefined_encoding : gmap string string :=
  <["PYTHONIOENCODING" := "undefined"]> LocalStore.env_full.

Definition env_region : gmap string string :=
  <["AWS_DEFAULT_REGION" := "eu-west-1"]> LocalStore.env_full.

End Shell.

(** Two environments that the SDK and the interpreter do not tell apart:
    each of their operations does the same in both. *)
Definition same_to_host (host : Host) (environ1 environ2 : gmap string string)
  : Prop :=
  (forall service e a k w,
     sdk_client host (ambient environ1) service e a k w =
     sdk_client host (ambient environ2) service e a k w) /\
  (forall self b w,
     sdk_create_bucket host (ambient environ1) self b w =
     sdk_create_bucket host (ambient environ2) self b w) /\
  (forall text w,
     stdout_write host (ambient environ1) text w =
     stdout_write host (ambient environ2) text w) /\
  (forall w,
     stdout_flush host (ambient environ1) w =
     stdout_flush host (ambient environ2) w).

(** ** How a run ends *)

Section Runs.

Context {host : Host}.
Implicit Types (environ : gmap string string).

(** Both conversions of the bucket variable give the same text. *)
Lemma str_bucket environ :
  str (os.getenv environ "S3_BUCKET_NAME") = bucket_name environ.
Proof.
  unfold os.getenv, bucket_name.
  destruct (environ !! "S3_BUCKET_NAME"); reflexivity.
Qed.

Lemma format_field_bucket environ :
  format_field (os.getenv environ "S3_BUCKET_NAME") = bucket_name environ.
Proof.
  unfold os.getenv, bucket_name.
  destruct (environ !! "S3_BUCKET_NAME"); reflexivity.
Qed.

Lemma str_format_field (o : PyVal) : str o = format_field o.
Proof. destruct o; reflexivity. Qed.

Lemma getenv_as_found environ key : as_found environ key (os.getenv environ key).
Proof.
  unfold as_found, os.getenv. destruct (environ !! key); reflexivity.
Qed.

(** The script is the straight line of its three calls. *)
Lemma init_s3_calls environ :
  init_s3 host environ =
  Call (client_call environ) (fun s3_client =>
  Call (create_call environ s3_client) (fun _ =>
  Call (print_call environ) Ret)).
Proof.
  unfold init_s3, client_call, create_call, print_call, confirmation.
  rewrite str_bucket, format_field_bucket. reflexivity.
Qed.

(** A confirmation is never the empty text. *)
Lemma no_text_confirmation (name rest : string) :
  no_text (confirmation name +:+ rest) = false.
Proof. reflexivity. Qed.

Lemma no_text_confirmation_alone (name : string) :
  no_text (confirmation name) = false.
Proof. reflexivity. Qed.

(** Every run ends in one of the ways of [ending]. *)
Lemma run_ending environ (w0 : World host) : ending environ w0 (run environ w0).
Proof.
  unfold run, python. rewrite init_s3_calls.
  cbn [exec step answer client_call world stdout log app].
  destruct (sdk_client host _ _ _ _ _ w0) as [[e | c] w1] eqn:Hclient.
  { exact (client_raises environ w0 e w1 Hclient). }
  cbn [exec step answer create_call world stdout log app].
  destruct (sdk_create_bucket host _ c _ w1) as [[e | r] w2] eqn:Hcreate.
  { exact (create_raises environ w0 c w1 e w2 Hclient Hcreate). }
  unfold print_call at 1. unfold step, answer, print_to_stdout.
  cbn [world stdout log app].
  destruct (stdout_write host _ _ w2)
    as [[e | []] w3] eqn:Htext.
  { exact (print_raises environ w0 c w1 r w2 e w3 Hclient Hcreate Htext). }
  destruct (stdout_write host _ newline w3) as [[e | []] w4] eqn:Hnewline.
  - unfold finish. cbn [fst snd world stdout log].
    change (EmptyString +:+ confirmation (bucket_name environ))
      with (confirmation (bucket_name environ)).
    rewrite no_text_confirmation_alone.
    destruct (stdout_flush host _ w4) as [ok w5] eqn:Hflush.
    pose proof (newline_raises environ w0 c w1 r w2 w3 e w4 ok w5
                  Hclient Hcreate Htext Hnewline Hflush) as Hend.
    destruct ok; exact Hend.
  - unfold finish. cbn [fst snd world stdout log].
    change (EmptyString +:+ confirmation (bucket_name environ) +:+ newline)
      with (confirmation (bucket_name environ) +:+ newline).
    rewrite no_text_confirmation.
    destruct (stdout_flush host _ w4) as [ok w5] eqn:Hflush.
    pose proof (completes environ w0 c w1 r w2 w3 w4 ok w5
                  Hclient Hcreate Htext Hnewline Hflush) as Hend.
    destruct ok; exact Hend.
Qed.

End Runs.

(** Case analysis on the way the run of [environ] from [w0] ends. *)
Ltac run_cases environ w0 :=
  generalize (run_ending environ w0);
  generalize (run environ w0);
  let o := fresh "o" in
  let H := fresh "H" in
  intros o H; destruct H.

(** ** The bucket name *)

(** C1. Once the client is built, the creation call is made with one
    [Bucket] argument: the text [None] when [S3_BUCKET_NAME] is unset, and
    the value of [S3_BUCKET_NAME], as a string, when it is set. *)
Theorem create_bucket_receives_name {host : Host}
    (environ : gmap string string) (w0 : World host) :
  client_built (run environ w0) = true ->
  (environ !! "S3_BUCKET_NAME" = None ->
   buckets (requests (run environ w0)) = [PyStr "None"]) /\
  (forall value, environ !! "S3_BUCKET_NAME" = Some value ->
   buckets (requests (run environ w0)) = [PyStr value]).
Proof.
  run_cases environ w0; cbn; intros Hbuilt; try discriminate Hbuilt.
  all: unfold bucket_name; split; [intros -> | intros value ->]; reflexivity.
Qed.

Example create_bucket_receives_name_example :
  client_built (run (host := LocalStore.host) LocalStore.env_no_bucket []) = true /\
  buckets (requests (run (host := LocalStore.host) LocalStore.env_no_bucket []))
    = [PyStr "None"] /\
  client_built (run (host := LocalStore.host) LocalStore.env_full ["exit-debt"]) = true /\
  buckets (requests (run (host := LocalStore.host) LocalStore.env_full ["exit-debt"]))
    = [PyStr "exit-debt"].
Proof.
  split; [vm_compute; reflexivity |].
  split.
  { refine (proj1 (create_bucket_receives_name (host := LocalStore.host)
                     LocalStore.env_no_bucket [] _) _);
      vm_compute; reflexivity. }
  split; [vm_compute; reflexivity |].
  refine (proj2 (create_bucket_receives_name (host := LocalStore.host)
                   LocalStore.env_full ["exit-debt"] _) "exit-debt" _);
    vm_compute; reflexivity.
Defined.



(** ** Success and failure *)




(** Nor is status 0 reached when every call returns but the flush of
    standard output fails at exit, as on a full device: the status is then
    120. *)
Lemma full_device_exit_status :
  client_built (run (host := FullDevice.host) LocalStore.env_full []) = true /\
  bucket_created (run (host := FullDevice.host) LocalStore.env_full []) = true /\
  confirmation_printed
    (run (host := FullDevice.host) LocalStore.env_full []) = true /\
  flushed (run (host := FullDevice.host) LocalStore.env_full []) = false /\
  exit_status (run (host := FullDevice.host) LocalStore.env_full []) = 120.
Proof. vm_compute. repeat split. Qed.




(** C5. Whatever the environment and whatever the SDK and the service
    answer, a run makes at most one creation call. *)
Theorem at_most_one_creation_call {host : Host}
    (environ : gmap string string) (w0 : World host) :
  length (buckets (requests (run environ w0))) <= 1.
Proof.
  run_cases environ w0; cbn; lia.
Qed.

(** ** The client's configuration *)

(** C6. For every environment, the first call of a run is the client
    constructor, for the service [s3], with the endpoint, the access key id
    and the secret access key as found: the value of the variable when it is
    set, [None] when it is not. Nothing comes between the constructor and
    the creation call either: once the client is built, the next call is the
    creation call, whatever the bucket name is. *)
Theorem variables_passed_as_found {host : Host}
    (environ : gmap string string) (w0 : World host) :
  exists endpoint_url aws_access_key_id aws_secret_access_key rest,
    requests (run environ w0) =
      Boto3Client "s3" endpoint_url aws_access_key_id aws_secret_access_key
        :: rest /\
    as_found environ "S3_ENDPOINT" endpoint_url /\
    as_found environ "S3_ACCESS_KEY_ID" aws_access_key_id /\
    as_found environ "S3_SECRET_ACCESS_KEY" aws_secret_access_key /\
    (client_built (run environ w0) = true ->
     exists s3_client rest',
       rest = CreateBucket s3_client (PyStr (bucket_name environ)) :: rest').
Proof.
  exists (os.getenv environ "S3_ENDPOINT"),
         (os.getenv environ "S3_ACCESS_KEY_ID"),
         (os.getenv environ "S3_SECRET_ACCESS_KEY").
  run_cases environ w0; cbn; eexists;
    (split; [reflexivity |]); repeat (split; [apply getenv_as_found |]).
  - discriminate.
  - intros _. eexists _, _. reflexivity.
  - intros _. eexists _, _. reflexivity.
  - intros _. eexists _, _. reflexivity.
  - intros _. eexists _, _. reflexivity.
Qed.

Example variables_passed_as_found_example :
  exists rest,
    requests (run (host := LocalStore.host) LocalStore.env_other_keys []) =
      Boto3Client "s3" (PyStr "https://s3.example.org") (PyStr "AKIAEXAMPLE")
        PyNone :: rest.
Proof.
  destruct (variables_passed_as_found (host := LocalStore.host)
              LocalStore.env_other_keys [])
    as (e & a & k & rest & Hrequests & He & Ha & Hk & _).
  exists rest. rewrite Hrequests.
  vm_compute in He, Ha, Hk. rewrite He, Ha, Hk. reflexivity.
Defined.

(** ** Order of the calls *)

(** C7. A run is one fixed sequence, cut short only by an exception: the
    client constructor; if it returned, the creation call on the client it
    returned; if that returned, [print] with the confirmation. The record of
    a run is one of exactly four lists, each call with the arguments the
    environment gives and none repeated; a call is followed by the next one
    exactly when it returned. In particular a [print] comes only after a
    creation call that returned. *)
Theorem calls_in_fixed_order {host : Host}
    (environ : gmap string string) (w0 : World host) :
  ((exists e,
      log (final (run environ w0)) = [Raised (client_call environ) e]) \/
   (exists s3_client e,
      log (final (run environ w0)) =
        [Returned (client_call environ);
         Raised (create_call environ s3_client) e]) \/
   (exists s3_client e,
      log (final (run environ w0)) =
        [Returned (client_call environ);
         Returned (create_call environ s3_client);
         Raised (print_call environ) e]) \/
   (exists s3_client,
      log (final (run environ w0)) =
        [Returned (client_call environ);
         Returned (create_call environ s3_client);
         Returned (print_call environ)])) /\
  (forall i t text,
     log (final (run environ w0)) !! i = Some t ->
     entry_request t = Print text ->
     exists j s3_client Bucket,
       j < i /\
       log (final (run environ w0)) !! j
         = Some (Returned (CreateBucket s3_client Bucket))).
Proof.
  run_cases environ w0; cbn.
  - split; [left; exists e; reflexivity |].
    intros [| [| i]] t text Hi Ht; try discriminate Hi.
    injection Hi as <-. discriminate Ht.
  - split; [right; left; exists c, e; reflexivity |].
    intros [| [| [| i]]] t text Hi Ht; try discriminate Hi;
      injection Hi as <-; discriminate Ht.
  - split; [right; right; left; exists c, e; reflexivity |].
    intros [| [| [| [| i]]]] t text Hi Ht; try discriminate Hi;
      injection Hi as <-; try discriminate Ht.
    exists 1, c, (PyStr (bucket_name environ)). split; [lia | reflexivity].
  - split; [right; right; left; exists c, e; reflexivity |].
    intros [| [| [| [| i]]]] t text Hi Ht; try discriminate Hi;
      injection Hi as <-; try discriminate Ht.
    exists 1, c, (PyStr (bucket_name environ)). split; [lia | reflexivity].
  - split; [right; right; right; exists c; reflexivity |].
    intros [| [| [| [| i]]]] t text Hi Ht; try discriminate Hi;
      injection Hi as <-; try discriminate Ht.
    exists 1, c, (PyStr (bucket_name environ)). split; [lia | reflexivity].
Qed.

Example calls_in_fixed_order_example :
  exists j s3_client Bucket,
    j < 2 /\
    log (final (run (host := LocalStore.host) LocalStore.env_full [])) !! j
      = Some (Returned (CreateBucket s3_client Bucket)).
Proof.
  apply (proj2 (calls_in_fixed_order (host := LocalStore.host)
                  LocalStore.env_full [])
           2 (Returned (Print "Bucket exit-debt created successfully"))
           "Bucket exit-debt created successfully");
    vm_compute; reflexivity.
Defined.

(** ** The type of the bucket argument *)

(** C8. The [Bucket] argument of a creation call is always a string, never
    [None]: the value read from the environment goes through [str] first. *)
Theorem bucket_argument_is_a_string {host : Host}
    (environ : gmap string string) (w0 : World host) (Bucket : PyVal) :
  In Bucket (buckets (requests (run environ w0))) ->
  Bucket <> PyNone /\ exists name, Bucket = PyStr name.
Proof.
  run_cases environ w0; cbn; intros Hin; try contradiction.
  all: destruct Hin as [<- | []]; split; [discriminate | eauto].
Qed.

Example bucket_argument_is_a_string_example :
  In (PyStr "None")
     (buckets (requests (run (host := LocalStore.host) LocalStore.env_no_bucket []))) /\
  PyStr "None" <> PyNone /\ exists name, PyStr "None" = PyStr name.
Proof.
  assert (Hin : In (PyStr "None")
            (buckets (requests
               (run (host := LocalStore.host) LocalStore.env_no_bucket [])))).
  { vm_compute. left. reflexivity. }
  split; [exact Hin |].
  exact (bucket_argument_is_a_string (host := LocalStore.host)
           LocalStore.env_no_bucket [] (PyStr "None") Hin).
Defined.

(** ** Set to the empty string *)



(** ** What the output depends on *)



(** ** Which variables a run depends on *)

(** Cancellation for the concatenation of strings. *)
Lemma length_append (s t : string) :
  String.length (s +:+ t) = String.length s + String.length t.
Proof.
  induction s as [| a s IH]; [reflexivity |].
  change (S (String.length (s +:+ t)) = S (String.length s + String.length t)).
  rewrite IH. reflexivity.
Qed.

Lemma append_cancel_r (t s1 s2 : string) : s1 +:+ t = s2 +:+ t -> s1 = s2.
Proof.
  revert s2. induction s1 as [| a s1 IH]; intros [| b s2] Heq.
  - reflexivity.
  - change (t = String b (s2 +:+ t)) in Heq.
    apply (f_equal String.length) in Heq. simpl in Heq.
    rewrite length_append in Heq. lia.
  - change (String a (s1 +:+ t) = t) in Heq.
    apply (f_equal String.length) in Heq. simpl in Heq.
    rewrite length_append in Heq. lia.
  - change (String a (s1 +:+ t) = String b (s2 +:+ t)) in Heq.
    injection Heq as -> Heq. f_equal. apply IH, Heq.
Qed.

Lemma append_cancel_l (p s1 s2 : string) : p +:+ s1 = p +:+ s2 -> s1 = s2.
Proof.
  induction p as [| a p IH]; intros Heq; [exact Heq |].
  change (String a (p +:+ s1) = String a (p +:+ s2)) in Heq.
  injection Heq as Heq. apply IH, Heq.
Qed.

Lemma confirmation_line_inj (name1 name2 : string) :
  confirmation name1 +:+ newline = confirmation name2 +:+ newline ->
  name1 = name2.
Proof.
  intros Heq. apply append_cancel_r in Heq.
  unfold confirmation in Heq.
  apply append_cancel_l in Heq. apply append_cancel_r in Heq. exact Heq.
Qed.

(** The script is the same program for two environments that give the
    same three configuration values and the same bucket name. *)
Lemma init_s3_ext {host : Host} (environ1 environ2 : gmap string string) :
  os.getenv environ1 "S3_ENDPOINT" = os.getenv environ2 "S3_ENDPOINT" ->
  os.getenv environ1 "S3_ACCESS_KEY_ID" =
    os.getenv environ2 "S3_ACCESS_KEY_ID" ->
  os.getenv environ1 "S3_SECRET_ACCESS_KEY" =
    os.getenv environ2 "S3_SECRET_ACCESS_KEY" ->
  bucket_name environ1 = bucket_name environ2 ->
  init_s3 host environ1 = init_s3 host environ2.
Proof.
  intros He Ha Hk Hname. rewrite !init_s3_calls.
  unfold client_call, create_call, print_call.
  rewrite He, Ha, Hk, Hname. reflexivity.
Qed.

Lemma getenv_ext (environ1 environ2 : gmap string string) (key : string) :
  environ1 !! key = environ2 !! key ->
  os.getenv environ1 key = os.getenv environ2 key.
Proof. unfold os.getenv. intros ->. reflexivity. Qed.

(** A program runs the same in two environments that the host does not
    tell apart. *)
Lemma exec_same_to_host {host : Host} {R : Type}
    (environ1 environ2 : gmap string string) (p : prog host R) :
  same_to_host host environ1 environ2 ->
  forall st, exec (ambient environ1) p st = exec (ambient environ2) p st.
Proof.
  intros (Hclient & Hcreate & Hwrite & _).
  induction p as [r | q k IH]; intros st; [reflexivity |].
  cbn [exec].
  assert (Hstep : step host (ambient environ1) q st
                  = step host (ambient environ2) q st).
  { unfold step. f_equal. destruct q as [service e a k' | self b | text]; cbn.
    - rewrite Hclient. reflexivity.
    - rewrite Hcreate. reflexivity.
    - unfold print_to_stdout. rewrite Hwrite.
      destruct (stdout_write host (ambient environ2) text (world st))
        as [[e | []] w]; [reflexivity |].
      rewrite Hwrite. reflexivity. }
  rewrite Hstep.
  destruct (step host (ambient environ2) q st) as [[e | x] st']; [reflexivity |].
  apply IH.
Qed.



(** [S3_BUCKET_NAME] is not among the variables the host sees. *)
Lemma ambient_without_bucket (environ : gmap string string) :
  ambient (delete "S3_BUCKET_NAME" environ) = ambient environ.
Proof. unfold ambient. rewrite delete_delete_eq. reflexivity. Qed.

Lemma ambient_with_bucket (environ : gmap string string) (value : string) :
  ambient (<["S3_BUCKET_NAME" := value]> environ) = ambient environ.
Proof. unfold ambient. rewrite delete_insert_eq. reflexivity. Qed.

(** X2. An unset [S3_BUCKET_NAME] and one set to the text [None] cannot be
    told apart: removing the variable or setting it to [None] gives the same
    run, call for call. *)
Theorem unset_name_runs_as_none_text {host : Host}
    (environ : gmap string string) (w0 : World host) :
  run (delete "S3_BUCKET_NAME" environ) w0 =
  run (<["S3_BUCKET_NAME" := "None"]> environ) w0.
Proof.
  unfold run, python.
  rewrite ambient_without_bucket, ambient_with_bucket.
  rewrite (init_s3_ext (delete "S3_BUCKET_NAME" environ)
             (<["S3_BUCKET_NAME" := "None"]> environ)); [reflexivity | ..].
  1-3: apply getenv_ext;
    rewrite lookup_delete_ne, lookup_insert_ne by discriminate; reflexivity.
  unfold bucket_name. rewrite lookup_delete_eq, lookup_insert_eq. reflexivity.
Qed.

(** X3. The bucket variable has no part in building the client: two
    environments that differ in [S3_BUCKET_NAME] alone make the same first
    call, with the same result, from the same world. *)
Theorem constructor_ignores_bucket_name {host : Host}
    (environ1 environ2 : gmap string string) (w0 : World host) :
  delete "S3_BUCKET_NAME" environ1 = delete "S3_BUCKET_NAME" environ2 ->
  head (log (final (run environ1 w0))) = head (log (final (run environ2 w0))) /\
  client_built (run environ1 w0) = client_built (run environ2 w0).
Proof.
  intros Hrest.
  assert (Hlookup : forall key, key <> "S3_BUCKET_NAME" ->
            os.getenv environ1 key = os.getenv environ2 key).
  { intros key Hkey. apply getenv_ext.
    rewrite <- (lookup_delete_ne environ1 "S3_BUCKET_NAME" key) by congruence.
    rewrite <- (lookup_delete_ne environ2 "S3_BUCKET_NAME" key) by congruence.
    rewrite Hrest. reflexivity. }
  assert (He := Hlookup "S3_ENDPOINT" ltac:(discriminate)).
  assert (Ha := Hlookup "S3_ACCESS_KEY_ID" ltac:(discriminate)).
  assert (Hk := Hlookup "S3_SECRET_ACCESS_KEY" ltac:(discriminate)).
  assert (Hambient : ambient environ1 = ambient environ2).
  { unfold ambient. rewrite Hrest. reflexivity. }
  assert (Hcall : client_call (host := host) environ1 = client_call environ2).
  { unfold client_call. rewrite He, Ha, Hk. reflexivity. }
  run_cases environ1 w0; run_cases environ2 w0; cbn; rewrite Hcall;
    match goal with
    | H1 : sdk_client _ (ambient environ1) _ _ _ _ _ = _,
      H2 : sdk_client _ (ambient environ2) _ _ _ _ _ = _ |- _ =>
        rewrite He, Ha, Hk, Hambient in H1; rewrite H1 in H2
    end;
    try discriminate; try (split; reflexivity).
  match goal with
  | H : (inl _, _) = (inl _, _) |- _ => injection H as -> _
  end; split; reflexivity.
Qed.

Example constructor_ignores_bucket_name_example :
  LocalStore.env_full !! "S3_BUCKET_NAME" <> Shell.env_debts !! "S3_BUCKET_NAME" /\
  head (log (final (run (host := LocalStore.host) LocalStore.env_full ["debts"]))) =
  head (log (final (run (host := LocalStore.host) Shell.env_debts ["debts"]))) /\
  client_built (run (host := LocalStore.host) LocalStore.env_full ["debts"]) =
  client_built (run (host := LocalStore.host) Shell.env_debts ["debts"]).
Proof.
  split; [vm_compute; discriminate |].
  apply (constructor_ignores_bucket_name (host := LocalStore.host)
           LocalStore.env_full Shell.env_debts ["debts"]).
  vm_compute. reflexivity.
Defined.

(** X4. The bucket named in the creation call depends on
    [S3_BUCKET_NAME] alone: two runs that both build their client, in
    environments that agree on it, make the same creation calls as far as
    the [Bucket] argument goes, with any endpoints, keys, SDKs and
    services. *)
Theorem bucket_argument_ignores_endpoint_and_keys {host1 host2 : Host}
    (environ1 environ2 : gmap string string)
    (w1 : World host1) (w2 : World host2) :
  environ1 !! "S3_BUCKET_NAME" = environ2 !! "S3_BUCKET_NAME" ->
  client_built (run environ1 w1) = true ->
  client_built (run environ2 w2) = true ->
  buckets (requests (run environ1 w1)) = buckets (requests (run environ2 w2)).
Proof.
  intros Hsame.
  assert (Hname : bucket_name environ1 = bucket_name environ2).
  { unfold bucket_name. rewrite Hsame. reflexivity. }
  run_cases environ1 w1; run_cases environ2 w2; cbn;
    intros Hbuilt1 Hbuilt2;
    try discriminate Hbuilt1; try discriminate Hbuilt2.
  all: rewrite Hname; reflexivity.
Qed.

Example bucket_argument_ignores_endpoint_and_keys_example :
  LocalStore.env_full !! "S3_ENDPOINT" <>
    LocalStore.env_other_keys !! "S3_ENDPOINT" /\
  buckets (requests (run (host := LocalStore.host) LocalStore.env_full [])) =
  buckets (requests (run (host := LocalStore.host)
                       LocalStore.env_other_keys ["exit-debt"])).
Proof.
  split; [vm_compute; discriminate |].
  apply (bucket_argument_ignores_endpoint_and_keys
           (host1 := LocalStore.host) (host2 := LocalStore.host)
           LocalStore.env_full LocalStore.env_other_keys [] ["exit-debt"]);
    vm_compute; reflexivity.
Defined.



(** ** What a failure leaves behind *)

(** In a run where a call of the SDK is known to have raised, the cases of
    [ending] where it returned are ruled out, and the others agree with what
    is known. *)
Ltac known_results :=
  repeat match goal with
    | H1 : ?call = (_, _), H2 : ?call = (_, _) |- _ =>
        rewrite H1 in H2;
        first [ discriminate H2
              | injection H2 as <- <-
              | injection H2 as -> ->
              | injection H2 as <- ]
    end.




